(** * PptxGenJS: the Slide class (src/slide.ts)

    A shallow embedding of class [Slide]: its constructor, its property
    accessors and its composition methods, over an explicit state.

    - A JavaScript reference that may be missing is a [nullable] value.
    - A method is a state transformer that completes normally or throws;
      what it wrote before throwing stays written, as in JavaScript.
    - Module [gen-objects], which slide.ts imports as [genObj], is an
      interface ([GenObj]): the methods of [Slide] are stated over any
      implementation of it.  One implementation, [specGenObj], follows the
      written specification and is used where a property depends on what
      the builder layer does. *)

From stdpp Require Import base gmap strings list pretty.
From Stdlib Require Import ZArith Lia.

Local Open Scope Z_scope.

(** ** JavaScript values *)

(** A reference typed [T] in TypeScript (without strict null checks):
    [undefined], [null], or an object. *)
Inductive nullable (A : Type) : Type :=
| undefined
| null
| obj (a : A).
Arguments undefined {A}.
Arguments null {A}.
Arguments obj {A} a.

(** Truthiness of a reference: objects are truthy, [undefined] and [null]
    are not. *)
Definition truthy {A : Type} (v : nullable A) : bool :=
  match v with
  | obj _ => true
  | _ => false
  end.

(** [a || b] on references. *)
Definition js_or {A : Type} (a b : nullable A) : nullable A :=
  if truthy a then a else b.

(** Modelled from the spec: the errors the builder layer throws, after the
    taxonomy of the error-handling design (ValidationError, ResourceError).
    [HostError] stands for whatever a callback supplied by the owning
    presentation throws. *)
Inductive JsError : Type :=
| ValidationError (msg : string)
| ResourceError (msg : string)
| HostError (msg : string).

(** How a call ends. *)
Inductive completion (A : Type) : Type :=
| Normal (a : A)
| Throw (e : JsError).
Arguments Normal {A} a.
Arguments Throw {A} e.

(** ** core-enums and core-interfaces

    Both modules are imported by slide.ts for their types only. *)

Definition loc := positive.
Definition SlideRef := positive.

Definition HexColor := string.
Definition CHART_NAME := string.
Definition SHAPE_NAME := string.

(** An untyped function reference (TypeScript [Function]) that slide.ts
    only stores and hands on. *)
Inductive Function : Type :=
| HostFunction (label : string).

(** [BkgdOpts]: [{fill}], [{data}] or [{path}], after the examples in the
    doc comment of [Slide.background]. *)
Record BkgdOpts : Type := mkBkgdOpts {
  bk_fill : option string;
  bk_data : option string;
  bk_path : option string;
}.

(** Modelled from the spec: [ISlideNumber] of core-interfaces.ts; a
    numbering spec gives a position, as in the scenario [{x:1, y:1}]. *)
Record ISlideNumber : Type := mkSlideNumber {
  sn_x : Z;
  sn_y : Z;
}.

(** Modelled from the spec: [ILayout] of core-interfaces.ts, the page
    geometry. *)
Record ILayout : Type := mkLayout {
  layout_width : Z;
  layout_height : Z;
}.

(** A slide layout; the constructor of [Slide] reads its [slideNumberObj]. *)
Record ISlideLayout : Type := mkSlideLayout {
  sl_name : string;
  sl_slideNumberObj : nullable ISlideNumber;
}.

Record ChartSeries : Type := mkSeries {
  series_name : string;
  series_labels : list string;
  series_values : list Z;
}.

Record IChartMulti : Type := mkChartMulti {
  cm_type : CHART_NAME;
  cm_data : list ChartSeries;
}.

(** The first argument of [addChart]: [CHART_NAME | IChartMulti[]]. *)
Inductive ChartType : Type :=
| SingleChart (name : CHART_NAME)
| MultiChart (charts : list IChartMulti).

(** A property value of an option object. *)
Inductive JsValue : Type :=
| JsString (s : string)
| JsNumber (n : Z)
| JsBoolean (b : bool)
| JsChartType (t : ChartType).

(** An option object ([ITextOpts], [ShapeOptions], [IImageOpts],
    [MediaOpts], [ITableOptions], [IChartOpts]) is a bag of properties. *)
Abbreviation Options := (gmap string JsValue).

(** The first argument of [addText]: [string | IText[]]. *)
Inductive TextArg : Type :=
| TextString (s : string)
| TextRuns (runs : list (string * nullable Options)).

Definition TableRow := list string.

(** The three relationship tables hold entries of one shape. *)
Inductive RelKind : Type :=
| RelImage
| RelChart
| RelMedia.

(** Modelled from the spec: [ISlideRel], [ISlideRelChart] and
    [ISlideRelMedia] of core-interfaces.ts; a Relationship is
    {id, kind, target}. *)
Record Relationship : Type := mkRel {
  rel_rId : Z;
  rel_kind : RelKind;
  rel_target : string;
}.

Abbreviation ISlideRel := Relationship.
Abbreviation ISlideRelChart := Relationship.
Abbreviation ISlideRelMedia := Relationship.

(** Modelled from the spec: [ISlideObject] of core-interfaces.ts; a
    ContentObject is a variant over the content kinds; it carries the
    payload of the call that made it and, for a resource-bearing kind, the
    relationship identifier created for it.  Chart options are held by
    reference, as [addChart] writes to them. *)
Inductive ISlideObject : Type :=
| TextContent (text : TextArg) (options : nullable Options)
| ShapeContent (shapeName : SHAPE_NAME) (options : nullable Options)
| ImageContent (options : Options) (rId : Z)
| MediaContent (options : Options) (rId : Z)
| TableContent (rows : list TableRow) (options : nullable Options)
| ChartContent (groups : list IChartMulti) (options : nullable loc) (rId : Z)
| RawMarkupContent (xml : string).

(** ** The Slide object *)

(** The fields of class [Slide], public ones first, then the private
    backing fields of the accessors.  [Pres] is the state of the owning
    presentation, masters and layouts included, on which [_setSlideNum]
    acts; the callback is handed the numbering spec only and has no
    access to the slide.  [slideLayout] holds the layout as it was handed
    to the constructor. *)
Record Slide (Pres : Type) : Type := mkSlide {
  _setSlideNum : nullable ISlideNumber -> Pres -> completion unit * Pres;
  addSlide : Function;
  data : list ISlideObject;
  getSlide : Function;
  id : Z;
  name : string;
  number : Z;
  presLayout : ILayout;
  rels : list ISlideRel;
  relsChart : list ISlideRelChart;
  relsMedia : list ISlideRelMedia;
  rId : Z;
  slideLayout : nullable ISlideLayout;
  slideNumberObj : nullable ISlideNumber;
  _bkgd : nullable string;
  _background : nullable BkgdOpts;
  _color : nullable HexColor;
  _hidden : nullable bool;
  _slideNumber : nullable ISlideNumber;
}.
Arguments mkSlide {Pres}.
Arguments _setSlideNum {Pres} s.
Arguments addSlide {Pres} s.
Arguments data {Pres} s.
Arguments getSlide {Pres} s.
Arguments id {Pres} s.
Arguments name {Pres} s.
Arguments number {Pres} s.
Arguments presLayout {Pres} s.
Arguments rels {Pres} s.
Arguments relsChart {Pres} s.
Arguments relsMedia {Pres} s.
Arguments rId {Pres} s.
Arguments slideLayout {Pres} s.
Arguments slideNumberObj {Pres} s.
Arguments _bkgd {Pres} s.
Arguments _background {Pres} s.
Arguments _color {Pres} s.
Arguments _hidden {Pres} s.
Arguments _slideNumber {Pres} s.

(** The argument of the constructor. *)
Module params.
Record t (Pres : Type) : Type := mk {
  addSlide : Function;
  getSlide : Function;
  presLayout : ILayout;
  setSlideNum : nullable ISlideNumber -> Pres -> completion unit * Pres;
  slideId : Z;
  slideRId : Z;
  slideNumber : Z;
  slideLayout : nullable ISlideLayout;
}.
Arguments mk {Pres}.
Arguments addSlide {Pres} _.
Arguments getSlide {Pres} _.
Arguments presLayout {Pres} _.
Arguments setSlideNum {Pres} _.
Arguments slideId {Pres} _.
Arguments slideRId {Pres} _.
Arguments slideNumber {Pres} _.
Arguments slideLayout {Pres} _.
End params.

(** [this.slideLayout && this.slideLayout.slideNumberObj
      ? this.slideLayout.slideNumberObj : null] *)
Definition inheritedSlideNumber (layout : nullable ISlideLayout)
  : nullable ISlideNumber :=
  match layout with
  | obj l => if truthy (sl_slideNumberObj l) then sl_slideNumberObj l else null
  | _ => null
  end.

(** [new Slide(params)].  A slide number is an integer here, and
    ['Slide ' + n] prints it in decimal. *)
Definition Slide_constructor {Pres : Type} (p : params.t Pres) : Slide Pres :=
  let layout := js_or (params.slideLayout p) null in
  {| _setSlideNum := params.setSlideNum p;
     addSlide := params.addSlide p;
     data := [];
     getSlide := params.getSlide p;
     id := params.slideId p;
     name := "Slide " +:+ pretty (params.slideNumber p);
     number := params.slideNumber p;
     presLayout := params.presLayout p;
     rels := [];
     relsChart := [];
     relsMedia := [];
     rId := params.slideRId p;
     slideLayout := layout;
     slideNumberObj := inheritedSlideNumber layout;
     _bkgd := undefined;
     _background := undefined;
     _color := undefined;
     _hidden := undefined;
     _slideNumber := undefined |}.

(** ** State and effects *)

(** Modelled from the spec: the properties gen-objects.ts keeps on its
    target beside the fields class [Slide] declares: the reserved notes
    slot, and the structured background recorded for the serializer. *)
Record BuilderSlots : Type := mkSlots {
  notesSlot : nullable string;
  backgroundSlot : nullable BkgdOpts;
}.

(** What a call on one slide can read and write: the fields of the
    receiver ([self]), the builder's slots on it, the store of
    caller-owned chart option objects, and the state of the owning
    presentation.  [propagated] logs the arguments [_setSlideNum] was
    invoked with, oldest first; no code reads it. *)
Record State (Pres : Type) : Type := mkState {
  self : Slide Pres;
  slots : BuilderSlots;
  objects : gmap loc Options;
  pres : Pres;
  propagated : list (nullable ISlideNumber);
}.
Arguments mkState {Pres}.
Arguments self {Pres} s.
Arguments slots {Pres} s.
Arguments objects {Pres} s.
Arguments pres {Pres} s.
Arguments propagated {Pres} s.

(** A computation over the state.  A throw keeps the state as the
    computation left it. *)
Definition M (Pres A : Type) : Type := State Pres -> completion A * State Pres.

#[global] Instance M_ret {Pres : Type} : MRet (M Pres) :=
  fun A a st => (Normal a, st).

#[global] Instance M_bind {Pres : Type} : MBind (M Pres) :=
  fun A B f m st =>
    match m st with
    | (Normal a, st') => f a st'
    | (Throw e, st') => (Throw e, st')
    end.

Definition throw {Pres A : Type} (e : JsError) : M Pres A :=
  fun st => (Throw e, st).

Definition get_self {Pres : Type} : M Pres (Slide Pres) :=
  fun st => (Normal (self st), st).

Definition modify_self {Pres : Type} (f : Slide Pres -> Slide Pres)
  : M Pres unit :=
  fun st =>
    (Normal tt,
     mkState (f (self st)) (slots st) (objects st) (pres st) (propagated st)).

Definition modify_slots {Pres : Type} (f : BuilderSlots -> BuilderSlots)
  : M Pres unit :=
  fun st =>
    (Normal tt,
     mkState (self st) (f (slots st)) (objects st) (pres st) (propagated st)).

(** [{}]-style allocation of an option object. *)
Definition new_object {Pres : Type} (o : Options) : M Pres loc :=
  fun st =>
    let l := fresh (dom (objects st)) in
    (Normal l,
     mkState (self st) (slots st) (<[l := o]> (objects st)) (pres st)
       (propagated st)).

(** [o.key = value] on the option object at [l]. *)
Definition set_property {Pres : Type} (l : loc) (key : string) (value : JsValue)
  : M Pres unit :=
  fun st =>
    (Normal tt,
     mkState (self st) (slots st) (alter (<[key := value]>) l (objects st))
       (pres st) (propagated st)).

(** A call of the function reference [f] handed in as [setSlideNum]. *)
Definition invoke_setSlideNum {Pres : Type}
    (f : nullable ISlideNumber -> Pres -> completion unit * Pres)
    (value : nullable ISlideNumber) : M Pres unit :=
  fun st =>
    let (c, p) := f value (pres st) in
    (c, mkState (self st) (slots st) (objects st) p (propagated st ++ [value])).

(** ** Field assignments [this.f = v] *)

Definition assign_data {Pres : Type} (v : list ISlideObject) (s : Slide Pres)
  : Slide Pres :=
  mkSlide (_setSlideNum s) (addSlide s) v (getSlide s) (id s) (name s)
    (number s) (presLayout s) (rels s) (relsChart s) (relsMedia s) (rId s)
    (slideLayout s) (slideNumberObj s) (_bkgd s) (_background s) (_color s)
    (_hidden s) (_slideNumber s).

Definition assign_rels {Pres : Type} (v : list ISlideRel) (s : Slide Pres)
  : Slide Pres :=
  mkSlide (_setSlideNum s) (addSlide s) (data s) (getSlide s) (id s) (name s)
    (number s) (presLayout s) v (relsChart s) (relsMedia s) (rId s)
    (slideLayout s) (slideNumberObj s) (_bkgd s) (_background s) (_color s)
    (_hidden s) (_slideNumber s).

Definition assign_relsChart {Pres : Type} (v : list ISlideRelChart)
    (s : Slide Pres) : Slide Pres :=
  mkSlide (_setSlideNum s) (addSlide s) (data s) (getSlide s) (id s) (name s)
    (number s) (presLayout s) (rels s) v (relsMedia s) (rId s)
    (slideLayout s) (slideNumberObj s) (_bkgd s) (_background s) (_color s)
    (_hidden s) (_slideNumber s).

Definition assign_relsMedia {Pres : Type} (v : list ISlideRelMedia)
    (s : Slide Pres) : Slide Pres :=
  mkSlide (_setSlideNum s) (addSlide s) (data s) (getSlide s) (id s) (name s)
    (number s) (presLayout s) (rels s) (relsChart s) v (rId s)
    (slideLayout s) (slideNumberObj s) (_bkgd s) (_background s) (_color s)
    (_hidden s) (_slideNumber s).

Definition assign_slideNumberObj {Pres : Type} (v : nullable ISlideNumber)
    (s : Slide Pres) : Slide Pres :=
  mkSlide (_setSlideNum s) (addSlide s) (data s) (getSlide s) (id s) (name s)
    (number s) (presLayout s) (rels s) (relsChart s) (relsMedia s) (rId s)
    (slideLayout s) v (_bkgd s) (_background s) (_color s)
    (_hidden s) (_slideNumber s).

Definition assign__bkgd {Pres : Type} (v : nullable string) (s : Slide Pres)
  : Slide Pres :=
  mkSlide (_setSlideNum s) (addSlide s) (data s) (getSlide s) (id s) (name s)
    (number s) (presLayout s) (rels s) (relsChart s) (relsMedia s) (rId s)
    (slideLayout s) (slideNumberObj s) v (_background s) (_color s)
    (_hidden s) (_slideNumber s).

Definition assign__color {Pres : Type} (v : nullable HexColor) (s : Slide Pres)
  : Slide Pres :=
  mkSlide (_setSlideNum s) (addSlide s) (data s) (getSlide s) (id s) (name s)
    (number s) (presLayout s) (rels s) (relsChart s) (relsMedia s) (rId s)
    (slideLayout s) (slideNumberObj s) (_bkgd s) (_background s) v
    (_hidden s) (_slideNumber s).

Definition assign__hidden {Pres : Type} (v : nullable bool) (s : Slide Pres)
  : Slide Pres :=
  mkSlide (_setSlideNum s) (addSlide s) (data s) (getSlide s) (id s) (name s)
    (number s) (presLayout s) (rels s) (relsChart s) (relsMedia s) (rId s)
    (slideLayout s) (slideNumberObj s) (_bkgd s) (_background s) (_color s)
    v (_slideNumber s).

Definition assign__slideNumber {Pres : Type} (v : nullable ISlideNumber)
    (s : Slide Pres) : Slide Pres :=
  mkSlide (_setSlideNum s) (addSlide s) (data s) (getSlide s) (id s) (name s)
    (number s) (presLayout s) (rels s) (relsChart s) (relsMedia s) (rId s)
    (slideLayout s) (slideNumberObj s) (_bkgd s) (_background s) (_color s)
    (_hidden s) v.

(** The slide after [slide.slideNumber = value]: both numbering fields
    hold [value]. *)
Definition numbered {Pres : Type} (value : nullable ISlideNumber)
    (s : Slide Pres) : Slide Pres :=
  assign__slideNumber value (assign_slideNumberObj value s).

(** ** gen-objects, as slide.ts sees it *)

(** The functions of module [gen-objects] that slide.ts calls, with the
    arguments it passes.  What they return is never used. *)
Record GenObj (Pres : Type) : Type := mkGenObj {
  addBackgroundDefinition : nullable BkgdOpts -> SlideRef -> M Pres unit;
  addChartDefinition :
    SlideRef -> ChartType -> list ChartSeries -> nullable loc -> M Pres unit;
  addImageDefinition : SlideRef -> Options -> M Pres unit;
  addMediaDefinition : SlideRef -> Options -> M Pres unit;
  addNotesDefinition : SlideRef -> string -> M Pres unit;
  addShapeDefinition : SlideRef -> SHAPE_NAME -> nullable Options -> M Pres unit;
  addTableDefinition :
    SlideRef -> list TableRow -> nullable Options -> nullable ISlideLayout ->
    ILayout -> Function -> Function -> M Pres unit;
  addTextDefinition :
    SlideRef -> TextArg -> nullable Options -> bool -> M Pres unit;
  addXMLDefinition : SlideRef -> string -> M Pres unit;
}.
Arguments mkGenObj {Pres}.
Arguments addBackgroundDefinition {Pres} _.
Arguments addChartDefinition {Pres} _.
Arguments addImageDefinition {Pres} _.
Arguments addMediaDefinition {Pres} _.
Arguments addNotesDefinition {Pres} _.
Arguments addShapeDefinition {Pres} _.
Arguments addTableDefinition {Pres} _.
Arguments addTextDefinition {Pres} _.
Arguments addXMLDefinition {Pres} _.

(** ** Accessors of class Slide *)

Definition set_bkgd {Pres : Type} (value : nullable string) : M Pres unit :=
  modify_self (assign__bkgd value).

Definition get_bkgd {Pres : Type} : M Pres (nullable string) :=
  s ← get_self; mret (_bkgd s).

Definition set_background {Pres : Type} (genObj : GenObj Pres)
    (this : SlideRef) (value : nullable BkgdOpts) : M Pres unit :=
  addBackgroundDefinition genObj value this.

Definition get_background {Pres : Type} : M Pres (nullable BkgdOpts) :=
  s ← get_self; mret (_background s).

Definition set_color {Pres : Type} (value : nullable HexColor) : M Pres unit :=
  modify_self (assign__color value).

Definition get_color {Pres : Type} : M Pres (nullable HexColor) :=
  s ← get_self; mret (_color s).

Definition set_hidden {Pres : Type} (value : nullable bool) : M Pres unit :=
  modify_self (assign__hidden value).

Definition get_hidden {Pres : Type} : M Pres (nullable bool) :=
  s ← get_self; mret (_hidden s).

Definition set_slideNumber {Pres : Type} (value : nullable ISlideNumber)
  : M Pres unit :=
  modify_self (assign_slideNumberObj value);;
  modify_self (assign__slideNumber value);;
  s ← get_self;
  invoke_setSlideNum (_setSlideNum s) value.

Definition get_slideNumber {Pres : Type} : M Pres (nullable ISlideNumber) :=
  s ← get_self; mret (_slideNumber s).

(** ** Composition methods of class Slide

    [this] is the reference to the receiver, whose fields are [self] of
    the state; each method hands it to the builder as the target and
    returns a reference. *)

Definition addChart {Pres : Type} (genObj : GenObj Pres) (this : SlideRef)
    (type : ChartType) (series : list ChartSeries) (options : nullable loc)
  : M Pres SlideRef :=
  optionsWithType ←
    match options with
    | obj l => mret l
    | _ => new_object ∅
    end;
  set_property optionsWithType "_type" (JsChartType type);;
  addChartDefinition genObj this type series options;;
  mret this.

Definition addImage {Pres : Type} (genObj : GenObj Pres) (this : SlideRef)
    (options : Options) : M Pres SlideRef :=
  addImageDefinition genObj this options;;
  mret this.

Definition addMedia {Pres : Type} (genObj : GenObj Pres) (this : SlideRef)
    (options : Options) : M Pres SlideRef :=
  addMediaDefinition genObj this options;;
  mret this.

Definition addNotes {Pres : Type} (genObj : GenObj Pres) (this : SlideRef)
    (notes : string) : M Pres SlideRef :=
  addNotesDefinition genObj this notes;;
  mret this.

Definition addShape {Pres : Type} (genObj : GenObj Pres) (this : SlideRef)
    (shapeName : SHAPE_NAME) (options : nullable Options) : M Pres SlideRef :=
  addShapeDefinition genObj this shapeName options;;
  mret this.

Definition addTable {Pres : Type} (genObj : GenObj Pres) (this : SlideRef)
    (tableRows : list TableRow) (options : nullable Options)
  : M Pres SlideRef :=
  s ← get_self;
  addTableDefinition genObj this tableRows options (slideLayout s)
    (presLayout s) (addSlide s) (getSlide s);;
  mret this.

Definition addText {Pres : Type} (genObj : GenObj Pres) (this : SlideRef)
    (text : TextArg) (options : nullable Options) : M Pres SlideRef :=
  addTextDefinition genObj this text options false;;
  mret this.

Definition addXML {Pres : Type} (genObj : GenObj Pres) (this : SlideRef)
    (xml : string) : M Pres SlideRef :=
  addXMLDefinition genObj this xml;;
  mret this.

(** ** The builder layer, after the specification

    [specGenObj] implements [GenObj] as the specification describes the
    builder layer. *)

(** Modelled from the spec: the append every handler of gen-objects.ts
    ends with; the finished ContentObject goes to the end of the ordered
    content list. *)
Definition push_content {Pres : Type} (o : ISlideObject) : M Pres unit :=
  modify_self (fun s => assign_data (data s ++ [o]) s).

(** Modelled from the spec: the identifier RelationshipAllocator (in
    gen-objects.ts) hands out next in the slide's namespace, starting at
    1.  Class [Slide] has no counter field and entries are never deleted,
    so the next identifier is one more than the number of entries in the
    three tables. *)
Definition nextRelId {Pres : Type} (s : Slide Pres) : Z :=
  Z.of_nat (length (rels s) + length (relsChart s) + length (relsMedia s)) + 1.

(** The table a relationship of a given kind is recorded in. *)
Definition push_rel {Pres : Type} (r : Relationship) (s : Slide Pres)
  : Slide Pres :=
  match rel_kind r with
  | RelImage => assign_rels (rels s ++ [r]) s
  | RelChart => assign_relsChart (relsChart s ++ [r]) s
  | RelMedia => assign_relsMedia (relsMedia s ++ [r]) s
  end.

(** Modelled from the spec: [register(kind, target) -> Relationship] of
    RelationshipAllocator. *)
Definition register {Pres : Type} (kind : RelKind) (target : string)
  : M Pres Relationship :=
  s ← get_self;
  let r := mkRel (nextRelId s) kind target in
  modify_self (push_rel r);;
  mret r.

(** Modelled from the spec: resource resolution in gen-objects.ts; a
    resource is given by an external path or by inline data, and with
    neither the payload is empty. *)
Definition resourceOf (options : Options) : option string :=
  match options !! "path" with
  | Some (JsString p) => Some p
  | _ =>
      match options !! "data" with
      | Some (JsString d) => Some d
      | _ => None
      end
  end.

(** Modelled from the spec: chart normalization in gen-objects.ts; a
    chart input of a single type and a composite one become one descriptor
    with a type tag per series group. *)
Definition chartGroups (type : ChartType) (series : list ChartSeries)
  : list IChartMulti :=
  match type with
  | SingleChart n => [mkChartMulti n series]
  | MultiChart groups => groups
  end.

(** Modelled from the spec: [addTextDefinition] of gen-objects.ts, the
    text handler; its payload has no required field. *)
Definition spec_addTextDefinition {Pres : Type} (target : SlideRef)
    (text : TextArg) (options : nullable Options) (isPlaceholder : bool)
  : M Pres unit :=
  push_content (TextContent text options).

(** Modelled from the spec: [addShapeDefinition] of gen-objects.ts, the
    shape handler. *)
Definition spec_addShapeDefinition {Pres : Type} (target : SlideRef)
    (shapeName : SHAPE_NAME) (options : nullable Options) : M Pres unit :=
  push_content (ShapeContent shapeName options).

(** Modelled from the spec: [addImageDefinition] of gen-objects.ts; the
    image handler resolves the resource, fails with ResourceError before
    anything is written when there is none, then registers a relationship
    and tags the content object with its identifier. *)
Definition spec_addImageDefinition {Pres : Type} (target : SlideRef)
    (options : Options) : M Pres unit :=
  match resourceOf options with
  | None => throw (ResourceError "image: empty payload")
  | Some locator =>
      r ← register RelImage locator;
      push_content (ImageContent options (rel_rId r))
  end.

(** Modelled from the spec: [addMediaDefinition] of gen-objects.ts, the
    media handler, which works as the image handler does. *)
Definition spec_addMediaDefinition {Pres : Type} (target : SlideRef)
    (options : Options) : M Pres unit :=
  match resourceOf options with
  | None => throw (ResourceError "media: empty payload")
  | Some locator =>
      r ← register RelMedia locator;
      push_content (MediaContent options (rel_rId r))
  end.

(** Modelled from the spec: [addChartDefinition] of gen-objects.ts; the
    chart handler registers one chart relationship and appends one Chart
    object.  The set of known chart types is in core-enums and is not
    checked here. *)
Definition spec_addChartDefinition {Pres : Type} (target : SlideRef)
    (type : ChartType) (series : list ChartSeries) (options : nullable loc)
  : M Pres unit :=
  r ← register RelChart "chart";
  push_content (ChartContent (chartGroups type series) options (rel_rId r)).

(** Modelled from the spec: [addTableDefinition] of gen-objects.ts; the
    table handler rejects an empty row set with ValidationError before
    anything is written.  Continuation slides for overflowing tables are
    not modelled. *)
Definition spec_addTableDefinition {Pres : Type} (target : SlideRef)
    (tableRows : list TableRow) (options : nullable Options)
    (layout : nullable ISlideLayout) (presLayout : ILayout)
    (addSlide getSlide : Function) : M Pres unit :=
  match tableRows with
  | [] => throw (ValidationError "table: empty row set")
  | _ :: _ => push_content (TableContent tableRows options)
  end.

(** Modelled from the spec: [addXMLDefinition] of gen-objects.ts, the
    raw-markup handler. *)
Definition spec_addXMLDefinition {Pres : Type} (target : SlideRef)
    (xml : string) : M Pres unit :=
  push_content (RawMarkupContent xml).

(** Modelled from the spec: [addNotesDefinition] of gen-objects.ts; notes
    update the single reserved notes slot and are not appended to the
    content list. *)
Definition spec_addNotesDefinition {Pres : Type} (target : SlideRef)
    (notes : string) : M Pres unit :=
  modify_slots (fun b => mkSlots (obj notes) (backgroundSlot b)).

(** Modelled from the spec: [addBackgroundDefinition] of gen-objects.ts;
    the background handler records the structured background for the
    serializer and leaves the legacy colour in place (both may be present,
    the structured one taking precedence).  It is handed the slide from
    outside class [Slide], where the [private] field [_background] is out
    of reach, so it keeps the value in a slot of its own. *)
Definition spec_addBackgroundDefinition {Pres : Type}
    (value : nullable BkgdOpts) (target : SlideRef) : M Pres unit :=
  modify_slots (fun b => mkSlots (notesSlot b) value).

Definition specGenObj {Pres : Type} : GenObj Pres :=
  {| addBackgroundDefinition := spec_addBackgroundDefinition;
     addChartDefinition := spec_addChartDefinition;
     addImageDefinition := spec_addImageDefinition;
     addMediaDefinition := spec_addMediaDefinition;
     addNotesDefinition := spec_addNotesDefinition;
     addShapeDefinition := spec_addShapeDefinition;
     addTableDefinition := spec_addTableDefinition;
     addTextDefinition := spec_addTextDefinition;
     addXMLDefinition := spec_addXMLDefinition |}.

(** ** Sequences of calls on one slide *)

(** A call of one of the eight composition methods. *)
Inductive Composition : Type :=
| AddText (text : TextArg) (options : nullable Options)
| AddShape (shapeName : SHAPE_NAME) (options : nullable Options)
| AddImage (options : Options)
| AddMedia (options : Options)
| AddTable (tableRows : list TableRow) (options : nullable Options)
| AddChart (type : ChartType) (series : list ChartSeries)
    (options : nullable loc)
| AddXML (xml : string)
| AddNotes (notes : string).

(** A call of a public operation of [Slide]: a composition method or one
    of the five property writes. *)
Inductive Call : Type :=
| Compose (c : Composition)
| WriteBkgd (value : nullable string)
| WriteBackground (value : nullable BkgdOpts)
| WriteColor (value : nullable HexColor)
| WriteHidden (value : nullable bool)
| WriteSlideNumber (value : nullable ISlideNumber).

(** The calls that add visible content: every composition method but
    [addNotes]. *)
Definition addsContent (c : Call) : bool :=
  match c with
  | Compose (AddNotes _) => false
  | Compose _ => true
  | _ => false
  end.

Definition compose {Pres : Type} (genObj : GenObj Pres) (this : SlideRef)
    (c : Composition) : M Pres SlideRef :=
  match c with
  | AddText text options => addText genObj this text options
  | AddShape shapeName options => addShape genObj this shapeName options
  | AddImage options => addImage genObj this options
  | AddMedia options => addMedia genObj this options
  | AddTable tableRows options => addTable genObj this tableRows options
  | AddChart type series options => addChart genObj this type series options
  | AddXML xml => addXML genObj this xml
  | AddNotes notes => addNotes genObj this notes
  end.

Definition perform {Pres : Type} (genObj : GenObj Pres) (this : SlideRef)
    (c : Call) : M Pres unit :=
  match c with
  | Compose c' => compose genObj this c';; mret tt
  | WriteBkgd value => set_bkgd value
  | WriteBackground value => set_background genObj this value
  | WriteColor value => set_color value
  | WriteHidden value => set_hidden value
  | WriteSlideNumber value => set_slideNumber value
  end.

(** Statements in a row: the first throw ends the sequence. *)
Fixpoint perform_all {Pres : Type} (genObj : GenObj Pres) (this : SlideRef)
    (cs : list Call) : M Pres unit :=
  match cs with
  | [] => mret tt
  | c :: cs' => perform genObj this c;; perform_all genObj this cs'
  end.

(** Calls in a row by a caller that catches what each one throws and goes
    on: the state after the last one. *)
Definition run_calls {Pres : Type} (genObj : GenObj Pres) (this : SlideRef)
    (cs : list Call) (st : State Pres) : State Pres :=
  foldl (fun st c => (perform genObj this c st).2) st cs.

(** The content entry a call is recorded as: the entry carries the
    payload of the call. *)
Definition recordedAs (c : Call) (o : ISlideObject) : Prop :=
  match c, o with
  | Compose (AddText text options), TextContent text' options' =>
      text' = text ∧ options' = options
  | Compose (AddShape shapeName options), ShapeContent shapeName' options' =>
      shapeName' = shapeName ∧ options' = options
  | Compose (AddImage options), ImageContent options' _ => options' = options
  | Compose (AddMedia options), MediaContent options' _ => options' = options
  | Compose (AddTable tableRows options), TableContent rows' options' =>
      rows' = tableRows ∧ options' = options
  | Compose (AddChart type series options), ChartContent groups options' _ =>
      groups = chartGroups type series ∧ options' = options
  | Compose (AddXML xml), RawMarkupContent xml' => xml' = xml
  | _, _ => False
  end.

(** The relationship entries of a slide, table after table, and their
    identifiers. *)
Definition allRels {Pres : Type} (s : Slide Pres) : list Relationship :=
  rels s ++ relsChart s ++ relsMedia s.

Definition relIds {Pres : Type} (s : Slide Pres) : list Z :=
  rel_rId <$> allRels s.

(** A state whose receiver has just been constructed. *)
Definition freshState {Pres : Type} (p : params.t Pres) (heap : gmap loc Options)
    (host : Pres) : State Pres :=
  mkState (Slide_constructor p) (mkSlots undefined undefined) heap host [].

(** The calls that bear a resource. *)
Definition bearsResource (c : Call) : bool :=
  match c with
  | Compose (AddImage _) | Compose (AddMedia _) | Compose (AddChart _ _ _) =>
      true
  | _ => false
  end.

(** The relationship entries a call added: [s'] has the tables of [s]
    with [added] at the end of the tables of their kinds. *)
Definition extendsTables {Pres : Type} (s s' : Slide Pres)
    (added : list Relationship) : Prop :=
  rels s' = rels s ++ List.filter
              (fun r => match rel_kind r with RelImage => true | _ => false end)
              added ∧
  relsChart s' = relsChart s ++ List.filter
              (fun r => match rel_kind r with RelChart => true | _ => false end)
              added ∧
  relsMedia s' = relsMedia s ++ List.filter
              (fun r => match rel_kind r with RelMedia => true | _ => false end)
              added.

(** The identifiers in the three tables are 1, 2, ..., n in some order. *)
Definition idsAreInitialSegment {Pres : Type} (s : Slide Pres) : Prop :=
  relIds s ≡ₚ seqZ 1 (Z.of_nat (length (allRels s))).

(** A builder that respects the [private] modifier of [_background]: its
    background handler, which is outside class [Slide], leaves the field
    as it finds it. *)
Definition keepsBackgroundField {Pres : Type} (genObj : GenObj Pres) : Prop :=
  ∀ (v : nullable BkgdOpts) (this : SlideRef) (st : State Pres),
    _background (self (addBackgroundDefinition genObj v this st).2)
    = _background (self st).

(** ** Example data *)

Definition letterLayout : ILayout := mkLayout 10 7.

(** A presentation that counts the propagations it receives. *)
Definition countingHost (value : nullable ISlideNumber) (n : nat)
  : completion unit * nat :=
  (Normal tt, S n).

(** A presentation whose propagation operation fails. *)
Definition failingHost (value : nullable ISlideNumber) (n : nat)
  : completion unit * nat :=
  (Throw (HostError "no master to propagate to"), n).

Definition exampleParams
    (setSlideNum : nullable ISlideNumber -> nat -> completion unit * nat)
  : params.t nat :=
  params.mk (HostFunction "addSlide") (HostFunction "getSlide") letterLayout
    setSlideNum 256 2 1 undefined.

Definition numberedLayout : ISlideLayout :=
  mkSlideLayout "TITLE" (obj (mkSlideNumber 1 1)).

Definition redFill : nullable BkgdOpts :=
  obj (mkBkgdOpts (Some "FF0000") None None).

Definition imageAt (path : string) : Options :=
  {[ "path" := JsString path ]}.

(** ** Property writes, chained calls and a recording builder *)

(** The four property writes slide.ts carries out without the builder. *)
Inductive PropertyWrite : Type :=
| SetBkgd (value : nullable string)
| SetColor (value : nullable HexColor)
| SetHidden (value : nullable bool)
| SetSlideNumber (value : nullable ISlideNumber).

Definition asCall (w : PropertyWrite) : Call :=
  match w with
  | SetBkgd value => WriteBkgd value
  | SetColor value => WriteColor value
  | SetHidden value => WriteHidden value
  | SetSlideNumber value => WriteSlideNumber value
  end.

(** The slide after one property write. *)
Definition written {Pres : Type} (w : PropertyWrite) (s : Slide Pres)
  : Slide Pres :=
  match w with
  | SetBkgd v => assign__bkgd v s
  | SetColor v => assign__color v s
  | SetHidden v => assign__hidden v s
  | SetSlideNumber v => numbered v s
  end.

(** The value a property holds after a list of writes: the one written
    last, or the one held before when the list writes none. *)
Definition lastBkgd (ws : list PropertyWrite) (held : nullable string)
  : nullable string :=
  foldl (fun held w => match w with SetBkgd v => v | _ => held end) held ws.

Definition lastColor (ws : list PropertyWrite) (held : nullable HexColor)
  : nullable HexColor :=
  foldl (fun held w => match w with SetColor v => v | _ => held end) held ws.

Definition lastHidden (ws : list PropertyWrite) (held : nullable bool)
  : nullable bool :=
  foldl (fun held w => match w with SetHidden v => v | _ => held end) held ws.

Definition lastSlideNumber (ws : list PropertyWrite)
    (held : nullable ISlideNumber) : nullable ISlideNumber :=
  foldl (fun held w => match w with SetSlideNumber v => v | _ => held end)
    held ws.

(** The numbering specs a list of writes assigns to [slideNumber], in
    order. *)
Definition numbersWritten (ws : list PropertyWrite)
  : list (nullable ISlideNumber) :=
  omap (fun w => match w with SetSlideNumber v => Some v | _ => None end) ws.

(** [slide.m1(...).m2(...)...]: each method is called on the reference
    the one before it returned. *)
Fixpoint chain {Pres : Type} (genObj : GenObj Pres) (receiver : SlideRef)
    (cs : list Composition) : M Pres SlideRef :=
  match cs with
  | [] => mret receiver
  | c :: cs' => returned ← compose genObj receiver c; chain genObj returned cs'
  end.

(** A call of a function of gen-objects, with its arguments in order. *)
Inductive BuilderCall : Type :=
| CalledBackground (value : nullable BkgdOpts) (target : SlideRef)
| CalledChart (target : SlideRef) (type : ChartType)
    (series : list ChartSeries) (options : nullable loc)
| CalledImage (target : SlideRef) (options : Options)
| CalledMedia (target : SlideRef) (options : Options)
| CalledNotes (target : SlideRef) (notes : string)
| CalledShape (target : SlideRef) (shapeName : SHAPE_NAME)
    (options : nullable Options)
| CalledTable (target : SlideRef) (tableRows : list TableRow)
    (options : nullable Options) (layout : nullable ISlideLayout)
    (presLayout : ILayout) (addSlide getSlide : Function)
| CalledText (target : SlideRef) (text : TextArg) (options : nullable Options)
    (isPlaceholder : bool)
| CalledXML (target : SlideRef) (xml : string).

(** A handler that does nothing but note its call in the presentation
    state, which is the list of calls noted so far. *)
Definition note (b : BuilderCall) : M (list BuilderCall) unit :=
  fun st =>
    (Normal tt,
     mkState (self st) (slots st) (objects st) (pres st ++ [b])
       (propagated st)).

(** An implementation of [GenObj] that records how it is called. *)
Definition recordingGenObj : GenObj (list BuilderCall) :=
  {| addBackgroundDefinition := fun value target =>
       note (CalledBackground value target);
     addChartDefinition := fun target type series options =>
       note (CalledChart target type series options);
     addImageDefinition := fun target options =>
       note (CalledImage target options);
     addMediaDefinition := fun target options =>
       note (CalledMedia target options);
     addNotesDefinition := fun target notes => note (CalledNotes target notes);
     addShapeDefinition := fun target shapeName options =>
       note (CalledShape target shapeName options);
     addTableDefinition :=
       fun target tableRows options layout presLayout addSlide getSlide =>
         note (CalledTable target tableRows options layout presLayout addSlide
                 getSlide);
     addTextDefinition := fun target text options isPlaceholder =>
       note (CalledText target text options isPlaceholder);
     addXMLDefinition := fun target xml => note (CalledXML target xml) |}.

(** The calls of gen-objects one public operation on the slide [s],
    invoked on [this], is to make. *)
Definition builderCalls {Pres : Type} (this : SlideRef) (s : Slide Pres)
    (c : Call) : list BuilderCall :=
  match c with
  | Compose (AddText text options) => [CalledText this text options false]
  | Compose (AddShape shapeName options) =>
      [CalledShape this shapeName options]
  | Compose (AddImage options) => [CalledImage this options]
  | Compose (AddMedia options) => [CalledMedia this options]
  | Compose (AddTable tableRows options) =>
      [CalledTable this tableRows options (slideLayout s) (presLayout s)
         (addSlide s) (getSlide s)]
  | Compose (AddChart type series options) =>
      [CalledChart this type series options]
  | Compose (AddXML xml) => [CalledXML this xml]
  | Compose (AddNotes notes) => [CalledNotes this notes]
  | WriteBackground value => [CalledBackground value this]
  | WriteBkgd _ | WriteColor _ | WriteHidden _ | WriteSlideNumber _ => []
  end.

(** [addChart] calls that all pass the options object at [l]. *)
Definition chartsOn (l : loc) (charts : list (ChartType * list ChartSeries))
  : list Call :=
  (fun chart => Compose (AddChart chart.1 chart.2 (obj l))) <$> charts.

(** A presentation whose propagation operation never fails and that notes
    nothing. *)
Definition silentHost (value : nullable ISlideNumber) (log : list BuilderCall)
  : completion unit * list BuilderCall :=
  (Normal tt, log).

(** A background handler within the rights of code outside class
    [Slide]: it keeps a fill colour as the slide's plain colour through
    the public setter [bkgd], and does not touch the private field
    [_background]. *)
Definition fill_addBackgroundDefinition {Pres : Type}
    (value : nullable BkgdOpts) (target : SlideRef) : M Pres unit :=
  match value with
  | obj bg =>
      match bk_fill bg with
      | Some fill => set_bkgd (obj fill)
      | None => mret tt
      end
  | _ => mret tt
  end.

(** An implementation of [GenObj] with that background handler; its other
    handlers do nothing. *)
Definition fillGenObj {Pres : Type} : GenObj Pres :=
  {| addBackgroundDefinition := fill_addBackgroundDefinition;
     addChartDefinition := fun _ _ _ _ => mret tt;
     addImageDefinition := fun _ _ => mret tt;
     addMediaDefinition := fun _ _ => mret tt;
     addNotesDefinition := fun _ _ => mret tt;
     addShapeDefinition := fun _ _ _ => mret tt;
     addTableDefinition := fun _ _ _ _ _ _ _ => mret tt;
     addTextDefinition := fun _ _ _ _ => mret tt;
     addXMLDefinition := fun _ _ => mret tt |}.

(** * Properties *)

Section Construction.
Context {Pres : Type}.

(** C8.  A freshly constructed slide has an empty content list and three
    empty relationship tables; its name is the string "Slide " followed by
    the slide number in decimal; its layout is the one given, or [null]
    when none is; its [slideNumberObj] is the layout's when the layout
    exists and defines one, and [null] otherwise. *)
Theorem constructor_postconditions (p : params.t Pres) :
  let s := Slide_constructor p in
  data s = [] ∧ rels s = [] ∧ relsChart s = [] ∧ relsMedia s = [] ∧
  name s = String.append "Slide " (pretty (params.slideNumber p)) ∧
  slideLayout s =
    match params.slideLayout p with
    | obj layout => obj layout
    | _ => null
    end ∧
  slideNumberObj s =
    match params.slideLayout p with
    | obj layout =>
        match sl_slideNumberObj layout with
        | obj numbering => obj numbering
        | _ => null
        end
    | _ => null
    end.
Proof.
  intros s. subst s. unfold Slide_constructor, js_or. simpl.
  destruct (params.slideLayout p) as [| |layout]; simpl;
    try (repeat split; reflexivity).
  destruct (sl_slideNumberObj layout); repeat split; reflexivity.
Qed.

(** The name of a slide tells its number: two slides with one name were
    built with one slide number. *)
Lemma constructor_name_determines_number (p q : params.t Pres) :
  name (Slide_constructor p) = name (Slide_constructor q) →
  params.slideNumber p = params.slideNumber q.
Proof.
  unfold Slide_constructor. simpl. intros H.
  injection H as H. by apply (inj pretty).
Qed.

End Construction.

(** The twelfth slide is named "Slide 12", and a slide built on a layout
    that numbers its slides inherits the numbering. *)
Example constructor_example :
  let s := Slide_constructor
             (params.mk (HostFunction "addSlide") (HostFunction "getSlide")
                letterLayout countingHost 267 13 12 (obj numberedLayout)) in
  name s = "Slide 12" ∧ slideNumberObj s = obj (mkSlideNumber 1 1).
Proof. split; reflexivity. Qed.

Section SlideNumber.
Context {Pres : Type}.

(** The write of [slideNumber], step by step: both fields are assigned,
    then the callback runs once on the presentation. *)
Lemma set_slideNumber_unfold (v : nullable ISlideNumber) (st : State Pres) :
  set_slideNumber v st =
    let (c, host) := _setSlideNum (self st) v (pres st) in
    (c, mkState (numbered v (self st)) (slots st) (objects st) host
          (propagated st ++ [v])).
Proof.
  unfold set_slideNumber, mbind, M_bind, modify_self, get_self,
    invoke_setSlideNum, numbered.
  simpl. reflexivity.
Qed.

(** C2.  A write of [slideNumber] stores the value in [slideNumberObj] and
    invokes the propagation operation exactly once: the log of
    propagations grows by that one value, and the write ends as that one
    invocation did, on the presentation state it left.  A second write of
    the same value leaves the slide as the first one left it and invokes
    the propagation operation once more. *)
Theorem slideNumber_write_stores_and_propagates_once
    (v : nullable ISlideNumber) (st : State Pres) :
  let first := set_slideNumber v st in
  let second := set_slideNumber v first.2 in
  slideNumberObj (self first.2) = v ∧
  (get_slideNumber first.2).1 = Normal v ∧
  propagated first.2 = propagated st ++ [v] ∧
  (first.1, pres first.2) = _setSlideNum (self st) v (pres st) ∧
  slideNumberObj (self second.2) = slideNumberObj (self first.2) ∧
  self second.2 = self first.2 ∧
  propagated second.2 = propagated first.2 ++ [v] ∧
  (second.1, pres second.2) = _setSlideNum (self st) v (pres first.2).
Proof.
  intros first second. subst second first.
  rewrite !set_slideNumber_unfold.
  destruct (_setSlideNum (self st) v (pres st)) as [c1 h1] eqn:E1. simpl.
  destruct (_setSlideNum (self st) v h1) as [c2 h2] eqn:E2. simpl.
  repeat split; reflexivity.
Qed.

(** C3, as the code has it.  When the propagation operation throws, the
    write of [slideNumber] throws the same error; [slideNumberObj] and the
    stored [slideNumber] already hold the new value, as both are assigned
    before the propagation operation is invoked; every other field of the
    slide, the builder's slots and the option objects are as before. *)
Theorem slideNumber_write_fails_when_propagation_fails
    (v : nullable ISlideNumber) (st : State Pres) (e : JsError) (host : Pres) :
  _setSlideNum (self st) v (pres st) = (Throw e, host) →
  let after := (set_slideNumber v st).2 in
  (set_slideNumber v st).1 = Throw e ∧
  slideNumberObj (self after) = v ∧
  _slideNumber (self after) = v ∧
  data (self after) = data (self st) ∧
  rels (self after) = rels (self st) ∧
  relsChart (self after) = relsChart (self st) ∧
  relsMedia (self after) = relsMedia (self st) ∧
  id (self after) = id (self st) ∧
  rId (self after) = rId (self st) ∧
  name (self after) = name (self st) ∧
  number (self after) = number (self st) ∧
  presLayout (self after) = presLayout (self st) ∧
  slideLayout (self after) = slideLayout (self st) ∧
  addSlide (self after) = addSlide (self st) ∧
  getSlide (self after) = getSlide (self st) ∧
  _setSlideNum (self after) = _setSlideNum (self st) ∧
  _bkgd (self after) = _bkgd (self st) ∧
  _background (self after) = _background (self st) ∧
  _color (self after) = _color (self st) ∧
  _hidden (self after) = _hidden (self st) ∧
  slots after = slots st ∧
  objects after = objects st.
Proof.
  intros Hthrow after. subst after.
  rewrite set_slideNumber_unfold, Hthrow. simpl.
  repeat split; reflexivity.
Qed.

End SlideNumber.

(** C2 on an example: two writes of [{x:1, y:1}] on a presentation that
    counts propagations leave the count at two. *)
Example slideNumber_written_twice :
  let st := freshState (exampleParams countingHost) ∅ 0%nat in
  let v := obj (mkSlideNumber 1 1) in
  let after := (set_slideNumber v (set_slideNumber v st).2).2 in
  slideNumberObj (self after) = v ∧ pres after = 2%nat ∧
  propagated after = [v; v].
Proof. repeat split; reflexivity. Qed.

(** C3, as stated, fails: on a fresh slide without a layout
    [slideNumberObj] is [null]; a write of [{x:1, y:1}] whose propagation
    throws leaves [slideNumberObj] at [{x:1, y:1}], not at [null]. *)
Lemma slideNumber_write_is_not_rolled_back :
  let st := freshState (exampleParams failingHost) ∅ 0%nat in
  let v := obj (mkSlideNumber 1 1) in
  _setSlideNum (self st) v (pres st)
    = (Throw (HostError "no master to propagate to"), 0%nat) ∧
  (set_slideNumber v st).1 = Throw (HostError "no master to propagate to") ∧
  slideNumberObj (self st) = null ∧
  slideNumberObj (self (set_slideNumber v st).2) = v ∧
  slideNumberObj (self (set_slideNumber v st).2) ≠ slideNumberObj (self st).
Proof. repeat split; try reflexivity. discriminate. Qed.

(** The amended C3 at the failing presentation. *)
Lemma slideNumber_write_fails_witness :
  let st := freshState (exampleParams failingHost) ∅ 0%nat in
  let v := obj (mkSlideNumber 1 1) in
  _setSlideNum (self st) v (pres st)
    = (Throw (HostError "no master to propagate to"), 0%nat) ∧
  (set_slideNumber v st).1 = Throw (HostError "no master to propagate to") ∧
  slideNumberObj (self (set_slideNumber v st).2) = v ∧
  data (self (set_slideNumber v st).2) = [].
Proof.
  intros st v.
  assert (H : _setSlideNum (self st) v (pres st)
              = (Throw (HostError "no master to propagate to"), 0%nat))
    by reflexivity.
  split; [exact H|].
  pose proof (slideNumber_write_fails_when_propagation_fails v st _ _ H) as W.
  simpl in W. destruct W as (W1 & W2 & _ & W4 & _).
  split; [exact W1|]. split; [exact W2|exact W4].
Defined.

Section Methods.
Context {Pres : Type}.

(** A method that delegates and then returns [this] ends as the builder
    ended, with [this] for the builder's result. *)
Lemma delegate_then_return (m : M Pres unit) (this : SlideRef)
    (st : State Pres) :
  (m;; mret this) st =
    match m st with
    | (Normal _, st') => (Normal this, st')
    | (Throw e, st') => (Throw e, st')
    end.
Proof. reflexivity. Qed.

(** C7.  Each of the eight composition methods, when it completes
    normally, returns the slide it was invoked on. *)
Theorem composition_returns_this (genObj : GenObj Pres) (this : SlideRef)
    (c : Composition) (st st' : State Pres) (r : SlideRef) :
  compose genObj this c st = (Normal r, st') → r = this.
Proof.
  destruct c; simpl;
    unfold addText, addShape, addImage, addMedia, addTable, addChart,
      addXML, addNotes.
  - rewrite delegate_then_return.
    destruct (addTextDefinition _ _ _ _ _ _) as [[[]|e] s1]; congruence.
  - rewrite delegate_then_return.
    destruct (addShapeDefinition _ _ _ _ _) as [[[]|e] s1]; congruence.
  - rewrite delegate_then_return.
    destruct (addImageDefinition _ _ _ _) as [[[]|e] s1]; congruence.
  - rewrite delegate_then_return.
    destruct (addMediaDefinition _ _ _ _) as [[[]|e] s1]; congruence.
  - unfold mbind at 1, M_bind at 1, get_self.
    rewrite delegate_then_return.
    destruct (addTableDefinition _ _ _ _ _ _ _ _ _) as [[[]|e] s1]; congruence.
  - unfold mbind at 1, M_bind at 1.
    destruct options as [| |l]; simpl;
      unfold mbind at 1, M_bind at 1, set_property;
      rewrite delegate_then_return;
      destruct (addChartDefinition _ _ _ _ _ _) as [[[]|e] s1]; congruence.
  - rewrite delegate_then_return.
    destruct (addXMLDefinition _ _ _ _) as [[[]|e] s1]; congruence.
  - rewrite delegate_then_return.
    destruct (addNotesDefinition _ _ _ _) as [[[]|e] s1]; congruence.
Qed.

(** [alter] at a key that is present is an insertion. *)
Lemma alter_present (heap : gmap loc Options) (l : loc) (o : Options)
    (f : Options → Options) :
  heap !! l = Some o → alter f l heap = <[l := f o]> heap.
Proof.
  intros H. apply map_eq. intros l'.
  destruct (decide (l = l')) as [<-|Hne].
  - rewrite lookup_alter_eq, lookup_insert_eq, H. reflexivity.
  - rewrite lookup_alter_ne, lookup_insert_ne by done. reflexivity.
Qed.

(** C9.  [addChart] with an options object writes the chart type to the
    [_type] property of that very object, and only then delegates: the
    builder starts in the state [entry], which is the state of the call
    but for the caller's object, and the caller's object there is as it
    was but for [_type]. *)
Theorem addChart_assigns_type_before_delegating (genObj : GenObj Pres)
    (this : SlideRef) (type : ChartType) (series : list ChartSeries)
    (l : loc) (o : Options) (st : State Pres) :
  objects st !! l = Some o →
  let typed := <["_type" := JsChartType type]> o in
  let entry :=
    mkState (self st) (slots st) (<[l := typed]> (objects st)) (pres st)
      (propagated st) in
  addChart genObj this type series (obj l) st
    = (addChartDefinition genObj this type series (obj l);; mret this) entry ∧
  objects entry !! l = Some typed ∧
  typed !! "_type" = Some (JsChartType type) ∧
  (∀ key : string, key ≠ "_type" → typed !! key = o !! key) ∧
  (∀ l' : loc, l' ≠ l → objects entry !! l' = objects st !! l').
Proof.
  intros Hl typed entry. subst entry typed. simpl.
  repeat split.
  - unfold addChart. unfold mbind at 1, M_bind at 1. simpl.
    unfold mbind at 1, M_bind at 1, set_property. simpl.
    rewrite (alter_present _ _ _ _ Hl). reflexivity.
  - apply lookup_insert_eq.
  - apply lookup_insert_eq.
  - intros key Hkey. apply lookup_insert_ne. congruence.
  - intros l' Hl'. apply lookup_insert_ne. congruence.
Qed.

(** The write of [background] is the call of the builder and nothing
    else: the setter assigns no field itself. *)
Lemma set_background_delegates (genObj : GenObj Pres) (this : SlideRef)
    (v : nullable BkgdOpts) (st : State Pres) :
  set_background genObj this v st = addBackgroundDefinition genObj v this st.
Proof. reflexivity. Qed.

(** With any builder that leaves the private field [_background] alone,
    reading [background] after writing it yields what the field held
    before the write. *)
Lemma background_read_ignores_write (genObj : GenObj Pres) (this : SlideRef)
    (v : nullable BkgdOpts) (st : State Pres) :
  keepsBackgroundField genObj →
  (get_background (set_background genObj this v st).2).1
    = Normal (_background (self st)).
Proof.
  intros Hprivate. rewrite set_background_delegates.
  unfold get_background, mbind, M_bind, get_self, mret, M_ret. simpl.
  rewrite Hprivate. reflexivity.
Qed.

Lemma specGenObj_keepsBackgroundField :
  keepsBackgroundField (@specGenObj Pres).
Proof. intros v this st. reflexivity. Qed.

(** None of the five property writes of [Slide] assigns [_background],
    with any builder that respects the field's [private] modifier. *)
Lemma writes_keep_background_field (genObj : GenObj Pres) (this : SlideRef)
    (c : Call) (st : State Pres) :
  keepsBackgroundField genObj →
  match c with
  | Compose _ => True
  | _ => _background (self (perform genObj this c st).2)
         = _background (self st)
  end.
Proof.
  intros Hprivate. destruct c; simpl; try done.
  - apply Hprivate.
  - rewrite set_slideNumber_unfold.
    destruct (_setSlideNum (self st) value (pres st)); reflexivity.
Qed.


(** C5.  [addTable] with no rows throws a ValidationError and leaves the
    whole state, the content list included, as it was. *)
Theorem addTable_without_rows_is_rejected (this : SlideRef)
    (options : nullable Options) (st : State Pres) :
  ∃ msg : string,
    addTable specGenObj this [] options st = (Throw (ValidationError msg), st).
Proof. eexists. reflexivity. Qed.

End Methods.

(** The handler of [fillGenObj] respects the [private] modifier of
    [_background]. *)
Lemma fillGenObj_keepsBackgroundField (Pres : Type) :
  keepsBackgroundField (@fillGenObj Pres).
Proof.
  intros [| |bg] this st; try reflexivity.
  simpl. unfold fill_addBackgroundDefinition.
  destruct (bk_fill bg); reflexivity.
Qed.



(** C7 at [addText("Hello")] on a fresh slide. *)
Lemma composition_returns_this_witness :
  let st := freshState (exampleParams countingHost) ∅ 0%nat in
  ∃ st', compose specGenObj 7%positive (AddText (TextString "Hello") undefined) st
         = (Normal 7%positive, st').
Proof.
  intros st.
  destruct (compose specGenObj 7%positive
              (AddText (TextString "Hello") undefined) st)
    as [[r|e] st'] eqn:E.
  - exists st'. rewrite (composition_returns_this _ _ _ _ _ _ E). reflexivity.
  - vm_compute in E. discriminate E.
Defined.

(** C9 at a bar chart whose options object holds a title. *)
Lemma addChart_assigns_type_witness :
  let o : Options := {[ "title" := JsString "Sales" ]} in
  let st := mkState (Slide_constructor (exampleParams countingHost))
              (mkSlots undefined undefined) {[ 5%positive := o ]} 0%nat [] in
  objects st !! 5%positive = Some o ∧
  ∃ entry,
    addChart specGenObj 1%positive (SingleChart "bar") [] (obj 5%positive) st
      = (addChartDefinition specGenObj 1%positive (SingleChart "bar") []
           (obj 5%positive);; mret 1%positive) entry ∧
    objects entry !! 5%positive
      = Some (<["_type" := JsChartType (SingleChart "bar")]> o).
Proof.
  intros o st.
  assert (H : objects st !! 5%positive = Some o) by reflexivity.
  split; [exact H|].
  destruct (addChart_assigns_type_before_delegating specGenObj 1%positive
              (SingleChart "bar") [] 5%positive o st H) as (W1 & W2 & _).
  eexists. split; [exact W1|exact W2].
Defined.

(** C4 fails on the code: on a fresh slide, [slide.background = {fill:
    'FF0000'}] completes normally, and [slide.background] then reads
    [undefined]. *)
Theorem background_read_after_write_is_undefined :
  let st := freshState (exampleParams countingHost) ∅ 0%nat in
  let written := set_background specGenObj 1%positive redFill st in
  written.1 = Normal tt ∧
  (get_background written.2).1 = Normal undefined.
Proof. split; reflexivity. Qed.

Section Content.
Context {Pres : Type}.

(** What one call does to the content list, with the builder of the
    specification: a call that adds content and completes normally
    appends one entry, which records the call; any other call, and any
    call that throws, leaves the list as it was. *)
Lemma perform_data (this : SlideRef) (c : Call) (st : State Pres) :
  let r := perform specGenObj this c st in
  match r.1 with
  | Normal _ =>
      if addsContent c
      then ∃ o, data (self r.2) = data (self st) ++ [o] ∧ recordedAs c o
      else data (self r.2) = data (self st)
  | Throw _ => data (self r.2) = data (self st)
  end.
Proof.
  destruct c as [c| | | | |]; simpl.
  - destruct c; simpl.
    + eexists; split; [reflexivity|split; reflexivity].
    + eexists; split; [reflexivity|split; reflexivity].
    + unfold addImage, specGenObj; simpl. unfold spec_addImageDefinition.
      destruct (resourceOf options); simpl; [|reflexivity].
      eexists; split; reflexivity.
    + unfold addMedia, specGenObj; simpl. unfold spec_addMediaDefinition.
      destruct (resourceOf options); simpl; [|reflexivity].
      eexists; split; reflexivity.
    + destruct tableRows; simpl; [reflexivity|].
      eexists; split; [reflexivity|split; reflexivity].
    + destruct options; simpl;
        (eexists; split; [reflexivity|split; reflexivity]).
    + eexists; split; reflexivity.
    + reflexivity.
  - reflexivity.
  - reflexivity.
  - reflexivity.
  - reflexivity.
  - rewrite set_slideNumber_unfold.
    destruct (_setSlideNum (self st) value (pres st)) as [[[]|e] host];
      reflexivity.
Qed.

(** No call shortens or reorders the content list. *)
Lemma perform_keeps_content (this : SlideRef) (c : Call) (st : State Pres) :
  data (self st) `prefix_of` data (self (perform specGenObj this c st).2).
Proof.
  pose proof (perform_data this c st) as H. simpl in H.
  destruct ((perform specGenObj this c st).1).
  - destruct (addsContent c).
    + destruct H as (o & -> & _). by apply prefix_app_r.
    + by rewrite H.
  - by rewrite H.
Qed.

(** A sequence of calls that all complete normally appends, in call
    order, one entry for each call that adds content. *)
Lemma perform_all_data (this : SlideRef) (cs : list Call) :
  ∀ st st' : State Pres,
    perform_all specGenObj this cs st = (Normal tt, st') →
    ∃ os, data (self st') = data (self st) ++ os ∧
          Forall2 recordedAs (List.filter addsContent cs) os.
Proof.
  induction cs as [|c cs IH]; intros st st' Hrun.
  - inversion Hrun; subst. exists []. split; [by rewrite app_nil_r|constructor].
  - cbn [perform_all] in Hrun. unfold mbind, M_bind in Hrun.
    pose proof (perform_data this c st) as Hc. simpl in Hc.
    destruct (perform specGenObj this c st) as [[[]|e] st1]; [|discriminate].
    simpl in Hc. destruct (IH _ _ Hrun) as (os & Hos & Hrec).
    cbn [List.filter]. destruct (addsContent c).
    + destruct Hc as (o & Ho & Hro). exists (o :: os). split.
      * rewrite Hos, Ho, <- app_assoc. reflexivity.
      * by constructor.
    + exists os. split; [by rewrite Hos, Hc|done].
Qed.

(** C1.  On a freshly constructed slide, after a sequence of calls that
    all complete normally, the content list holds one entry for each call
    that adds content (addText, addShape, addImage, addMedia, addTable,
    addChart, addXML), in call order, each recording the payload of its
    call; so N such calls and nothing else give a list of length N.  No
    public operation, whether it completes or throws, removes or reorders
    an entry: the list before is a prefix of the list after.  [addNotes]
    leaves the content list as it was and sets the notes slot. *)
Theorem content_is_appended_in_call_order (p : params.t Pres)
    (heap : gmap loc Options) (host : Pres) (this : SlideRef)
    (cs : list Call) (st' : State Pres) :
  perform_all specGenObj this cs (freshState p heap host) = (Normal tt, st') →
  Forall2 recordedAs (List.filter addsContent cs) (data (self st')) ∧
  length (data (self st')) = length (List.filter addsContent cs) ∧
  (forallb addsContent cs = true →
     length (data (self st')) = length cs ∧
     Forall2 recordedAs cs (data (self st'))) ∧
  (∀ (c : Call) (st : State Pres),
     data (self st) `prefix_of` data (self (perform specGenObj this c st).2)) ∧
  (∀ (notes : string) (st : State Pres),
     let r := addNotes specGenObj this notes st in
     r.1 = Normal this ∧
     data (self r.2) = data (self st) ∧
     notesSlot (slots r.2) = obj notes).
Proof.
  intros Hrun.
  destruct (perform_all_data this cs _ _ Hrun) as (os & Hos & Hrec).
  simpl in Hos. subst os.
  assert (Hlen : length (data (self st')) = length (List.filter addsContent cs)).
  { symmetry. eapply Forall2_length, Hrec. }
  split; [exact Hrec|]. split; [exact Hlen|]. split; [|split].
  - intros Hall.
    assert (Hid : List.filter addsContent cs = cs).
    { clear -Hall. induction cs as [|c cs IH]; [reflexivity|].
      simpl in *. apply andb_prop in Hall as [Hc Hcs].
      rewrite Hc. f_equal. by apply IH. }
    rewrite Hid in Hrec, Hlen. by split.
  - intros c st. apply perform_keeps_content.
  - intros notes st r. subst r. repeat split; reflexivity.
Qed.

End Content.

(** C1 at a sequence of six calls, four of which add content. *)
Lemma content_is_appended_witness :
  let st := freshState (exampleParams countingHost) ∅ 0%nat in
  let cs := [ Compose (AddText (TextString "Hello") undefined);
              Compose (AddNotes "speak slowly");
              Compose (AddImage (imageAt "a.png"));
              WriteSlideNumber (obj (mkSlideNumber 1 1));
              Compose (AddTable [["a"; "b"]] undefined);
              Compose (AddChart (SingleChart "bar") [] undefined) ] in
  let st' := (perform_all specGenObj 1%positive cs st).2 in
  perform_all specGenObj 1%positive cs st = (Normal tt, st') ∧
  length (data (self st')) = 4%nat.
Proof.
  intros st cs st'.
  assert (H : perform_all specGenObj 1%positive cs st = (Normal tt, st'))
    by (vm_compute; reflexivity).
  split; [exact H|].
  destruct (content_is_appended_in_call_order _ _ _ _ _ _ H) as (_ & W & _).
  rewrite W. reflexivity.
Defined.

Section Relationships.
Context {Pres : Type}.

Lemma nextRelId_allRels (s : Slide Pres) :
  nextRelId s = Z.of_nat (length (allRels s)) + 1.
Proof. unfold nextRelId, allRels. rewrite !length_app. lia. Qed.

(** Tables that grow by nothing. *)
Lemma extendsTables_none (s s' : Slide Pres) :
  rels s' = rels s → relsChart s' = relsChart s → relsMedia s' = relsMedia s →
  extendsTables s s' [].
Proof.
  intros H1 H2 H3. unfold extendsTables. simpl.
  rewrite !app_nil_r. done.
Qed.

(** [register] grows the table of its kind by one entry. *)
Lemma extendsTables_push (s : Slide Pres) (r : Relationship) :
  extendsTables s (push_rel r s) [r].
Proof.
  unfold extendsTables, push_rel. simpl.
  destruct (rel_kind r); simpl; rewrite ?app_nil_r; done.
Qed.

(** What one call does to the relationship tables, with the builder of
    the specification: a resource-bearing call that completes normally
    registers one relationship, whose identifier is the next one; every
    other call, and every call that throws, registers none. *)
Lemma perform_rels (this : SlideRef) (c : Call) (st : State Pres) :
  let r := perform specGenObj this c st in
  ∃ added : list Relationship,
    extendsTables (self st) (self r.2) added ∧
    Forall (λ new, rel_rId new = nextRelId (self st)) added ∧
    if bearsResource c
    then match r.1 with
         | Normal _ => length added = 1%nat
         | Throw _ => added = []
         end
    else added = [].
Proof.
  destruct c as [c| | | | |]; simpl.
  - destruct c; simpl;
      try (exists []; split; [by apply extendsTables_none|by split]).
    + unfold addImage, specGenObj; simpl. unfold spec_addImageDefinition.
      destruct (resourceOf options) as [locator|]; simpl.
      * exists [mkRel (nextRelId (self st)) RelImage locator].
        split; [apply (extendsTables_push (self st))|].
        split; [by repeat constructor|done].
      * exists []. split; [by apply extendsTables_none|by split].
    + unfold addMedia, specGenObj; simpl. unfold spec_addMediaDefinition.
      destruct (resourceOf options) as [locator|]; simpl.
      * exists [mkRel (nextRelId (self st)) RelMedia locator].
        split; [apply (extendsTables_push (self st))|].
        split; [by repeat constructor|done].
      * exists []. split; [by apply extendsTables_none|by split].
    + destruct tableRows; simpl;
        (exists []; split; [by apply extendsTables_none|by split]).
    + destruct options; simpl;
        (exists [mkRel (nextRelId (self st)) RelChart "chart"];
         split; [apply (extendsTables_push (self st))|];
         split; [by repeat constructor|done]).
  - exists []; split; [by apply extendsTables_none|by split].
  - exists []; split; [by apply extendsTables_none|by split].
  - exists []; split; [by apply extendsTables_none|by split].
  - exists []; split; [by apply extendsTables_none|by split].
  - rewrite set_slideNumber_unfold.
    destruct (_setSlideNum (self st) value (pres st)) as [[[]|e] host];
      (exists []; split; [by apply extendsTables_none|by split]).
Qed.

Lemma idsAreInitialSegment_step (s s' : Slide Pres)
    (added : list Relationship) :
  idsAreInitialSegment s →
  extendsTables s s' added →
  Forall (λ new, rel_rId new = nextRelId s) added →
  (length added ≤ 1)%nat →
  idsAreInitialSegment s'.
Proof.
  unfold idsAreInitialSegment, relIds, allRels, extendsTables.
  intros Hinv (H1 & H2 & H3) Hnew Hlen.
  destruct added as [|r [|r' added]]; simpl in *; [| |lia].
  - rewrite H1, H2, H3, !app_nil_r. exact Hinv.
  - apply Forall_cons in Hnew as [Hr _].
    rewrite nextRelId_allRels in Hr. unfold allRels in Hr.
    rewrite H1, H2, H3.
    assert (Hids :
      rel_rId <$> (rels s ++ relsChart s ++ relsMedia s) ++ [r]
      ≡ₚ seqZ 1 (Z.of_nat (S (length (rels s ++ relsChart s ++ relsMedia s))))).
    { rewrite seqZ_S, fmap_app, Hinv. simpl. rewrite Hr.
      replace (1 + Z.of_nat (length (rels s ++ relsChart s ++ relsMedia s)))
        with (Z.of_nat (length (rels s ++ relsChart s ++ relsMedia s)) + 1)
        by lia.
      reflexivity. }
    destruct (rel_kind r); simpl; rewrite ?app_nil_r.
    + etransitivity; [|etransitivity; [exact Hids|]].
      * rewrite !fmap_app. simpl. solve_Permutation.
      * rewrite !length_app. simpl. f_equiv. f_equal. lia.
    + etransitivity; [|etransitivity; [exact Hids|]].
      * rewrite !fmap_app. simpl. solve_Permutation.
      * rewrite !length_app. simpl. f_equiv. f_equal. lia.
    + etransitivity; [|etransitivity; [exact Hids|]].
      * rewrite !fmap_app. simpl. solve_Permutation.
      * rewrite !length_app. simpl. f_equiv. f_equal. lia.
Qed.

Lemma perform_rels_at_most_one (this : SlideRef) (c : Call) (st : State Pres)
    (added : list Relationship) :
  (if bearsResource c
   then match (perform specGenObj this c st).1 with
        | Normal _ => length added = 1%nat
        | Throw _ => added = []
        end
   else added = []) →
  (length added ≤ 1)%nat.
Proof.
  destruct (bearsResource c); [destruct ((perform specGenObj this c st).1)|];
    intros H; rewrite ?H; simpl; lia.
Qed.

(** The invariant holds on a fresh slide and after every run of calls. *)
Lemma run_calls_ids (this : SlideRef) (cs : list Call) :
  ∀ st : State Pres,
    idsAreInitialSegment (self st) →
    idsAreInitialSegment (self (run_calls specGenObj this cs st)).
Proof.
  induction cs as [|c cs IH]; intros st Hinv; [exact Hinv|].
  unfold run_calls. simpl. apply IH.
  destruct (perform_rels this c st) as (added & Hext & Hnew & Hcount).
  eapply idsAreInitialSegment_step; eauto using perform_rels_at_most_one.
Qed.

(** C6.  After any run of calls on a freshly constructed slide, the
    identifiers in the three relationship tables taken together are
    exactly 1, 2, ..., n, each once.  Any further call leaves every entry
    in place and adds at most one entry, at the end of the table of its
    kind; a new entry gets the identifier n + 1, which is greater than
    every identifier given before, whatever the kinds.  A resource-bearing
    call (addImage, addMedia, addChart) that completes normally adds
    exactly one entry; a call that throws, or bears no resource, adds
    none. *)
Theorem relationship_ids_unique_and_increasing (p : params.t Pres)
    (heap : gmap loc Options) (host : Pres) (this : SlideRef)
    (cs : list Call) (c : Call) :
  let st := run_calls specGenObj this cs (freshState p heap host) in
  let r := perform specGenObj this c st in
  relIds (self st) ≡ₚ seqZ 1 (Z.of_nat (length (allRels (self st)))) ∧
  NoDup (relIds (self st)) ∧
  ∃ added : list Relationship,
    extendsTables (self st) (self r.2) added ∧
    Forall (λ new,
              rel_rId new = Z.of_nat (length (allRels (self st))) + 1 ∧
              Forall (λ old, old < rel_rId new) (relIds (self st))) added ∧
    if bearsResource c
    then match r.1 with
         | Normal _ => length added = 1%nat
         | Throw _ => added = []
         end
    else added = [].
Proof.
  intros st r.
  assert (Hinv : idsAreInitialSegment (self st)).
  { apply run_calls_ids. unfold idsAreInitialSegment. reflexivity. }
  split; [exact Hinv|]. split.
  { unfold idsAreInitialSegment in Hinv. rewrite Hinv. apply NoDup_seqZ. }
  destruct (perform_rels this c st) as (added & Hext & Hnew & Hcount).
  exists added. split; [exact Hext|]. split; [|exact Hcount].
  eapply Forall_impl; [exact Hnew|]. intros new Hid. simpl in Hid.
  rewrite nextRelId_allRels in Hid. split; [exact Hid|].
  apply Forall_forall. intros old Hold.
  unfold idsAreInitialSegment in Hinv. rewrite Hinv in Hold.
  apply elem_of_seqZ in Hold. lia.
Qed.

End Relationships.

(** C6 on an example: two images, a chart and a media file get the
    identifiers 1, 2, 3 and 4 in call order, across the three tables. *)
Example relationship_ids_example :
  let cs := [ Compose (AddImage (imageAt "a.png"));
              Compose (AddImage (imageAt "b.png"));
              Compose (AddChart (SingleChart "pie") [] undefined);
              Compose (AddMedia (imageAt "c.mp4")) ] in
  let s := self (run_calls specGenObj 1%positive cs
                   (freshState (exampleParams countingHost) ∅ 0%nat)) in
  rel_rId <$> rels s = [1; 2] ∧
  rel_rId <$> relsChart s = [3] ∧
  rel_rId <$> relsMedia s = [4].
Proof. repeat split; vm_compute; reflexivity. Qed.

Section PropertyWrites.
Context {Pres : Type}.

(** What one property write does to the state, whatever the builder. *)
Lemma write_effect (genObj : GenObj Pres) (this : SlideRef)
    (w : PropertyWrite) (st : State Pres) :
  let after := (perform genObj this (asCall w) st).2 in
  self after = written w (self st) ∧
  slots after = slots st ∧
  objects after = objects st ∧
  propagated after = propagated st ++ numbersWritten [w] ∧
  pres after =
    foldl (fun host v => (_setSlideNum (self st) v host).2) (pres st)
      (numbersWritten [w]).
Proof.
  destruct w as [v|v|v|v]; simpl;
    try (rewrite app_nil_r; repeat split; reflexivity).
  rewrite set_slideNumber_unfold.
  destruct (_setSlideNum (self st) v (pres st)) as [c host]; simpl.
  repeat split; reflexivity.
Qed.

Lemma written_keeps_callback (w : PropertyWrite) (s : Slide Pres) :
  _setSlideNum (written w s) = _setSlideNum s.
Proof. destruct w; reflexivity. Qed.

Lemma run_calls_cons (genObj : GenObj Pres) (this : SlideRef) (c : Call)
    (cs : list Call) (st : State Pres) :
  run_calls genObj this (c :: cs) st
  = run_calls genObj this cs (perform genObj this c st).2.
Proof. reflexivity. Qed.

(** X1.  After any interleaving of writes of [bkgd], [color], [hidden] and
    [slideNumber], completed or thrown out of, each getter returns the
    value written last to its own property, or what the slide held before
    when the property was not written; [slideNumberObj] follows the
    writes of [slideNumber] in the same way. *)
Theorem property_reads_return_last_write (genObj : GenObj Pres)
    (this : SlideRef) (ws : list PropertyWrite) (st : State Pres) :
  let after := run_calls genObj this (asCall <$> ws) st in
  (get_bkgd after).1 = Normal (lastBkgd ws (_bkgd (self st))) ∧
  (get_color after).1 = Normal (lastColor ws (_color (self st))) ∧
  (get_hidden after).1 = Normal (lastHidden ws (_hidden (self st))) ∧
  (get_slideNumber after).1
    = Normal (lastSlideNumber ws (_slideNumber (self st))) ∧
  slideNumberObj (self after)
    = lastSlideNumber ws (slideNumberObj (self st)).
Proof.
  revert st. induction ws as [|w ws IH]; intros st after; subst after.
  - repeat split; reflexivity.
  - rewrite fmap_cons, run_calls_cons.
    destruct (write_effect genObj this w st) as (Hself & _).
    destruct (IH (perform genObj this (asCall w) st).2)
      as (Hb & Hc & Hh & Hn & Ho).
    rewrite Hb, Hc, Hh, Hn, Ho, Hself.
    destruct w; repeat split; reflexivity.
Qed.

(** X2.  Writes of [bkgd], [color], [hidden] and [slideNumber] change the
    backing fields of these four properties and [slideNumberObj], and
    nothing else: the identity of the slide, its layouts and callbacks,
    its content list, its relationship tables, the field behind
    [background], the builder's slots and the option objects are after
    any number of such writes what they were before. *)
Theorem property_writes_keep_the_rest (genObj : GenObj Pres)
    (this : SlideRef) (ws : list PropertyWrite) (st : State Pres) :
  let after := run_calls genObj this (asCall <$> ws) st in
  id (self after) = id (self st) ∧
  rId (self after) = rId (self st) ∧
  name (self after) = name (self st) ∧
  number (self after) = number (self st) ∧
  presLayout (self after) = presLayout (self st) ∧
  slideLayout (self after) = slideLayout (self st) ∧
  addSlide (self after) = addSlide (self st) ∧
  getSlide (self after) = getSlide (self st) ∧
  _setSlideNum (self after) = _setSlideNum (self st) ∧
  data (self after) = data (self st) ∧
  rels (self after) = rels (self st) ∧
  relsChart (self after) = relsChart (self st) ∧
  relsMedia (self after) = relsMedia (self st) ∧
  _background (self after) = _background (self st) ∧
  slots after = slots st ∧
  objects after = objects st.
Proof.
  revert st. induction ws as [|w ws IH]; intros st after; subst after.
  - repeat split; reflexivity.
  - rewrite fmap_cons, run_calls_cons.
    destruct (write_effect genObj this w st) as (Hself & Hslots & Hobj & _).
    destruct (IH (perform genObj this (asCall w) st).2)
      as (H1 & H2 & H3 & H4 & H5 & H6 & H7 & H8 & H9 & H10 & H11 & H12
          & H13 & H14 & H15 & H16).
    rewrite H1, H2, H3, H4, H5, H6, H7, H8, H9, H10, H11, H12, H13, H14,
      H15, H16, Hself, Hslots, Hobj.
    destruct w; repeat split; reflexivity.
Qed.

(** X3.  Over any interleaving of property writes the propagation
    operation is invoked once for each write of [slideNumber], with the
    value written, in the order of the writes, and for no other write:
    the log grows by exactly the numbering specs written, and the
    presentation is left as these invocations, one after the other, leave
    it. *)
Theorem propagation_follows_slideNumber_writes (genObj : GenObj Pres)
    (this : SlideRef) (ws : list PropertyWrite) (st : State Pres) :
  let after := run_calls genObj this (asCall <$> ws) st in
  propagated after = propagated st ++ numbersWritten ws ∧
  pres after =
    foldl (fun host v => (_setSlideNum (self st) v host).2) (pres st)
      (numbersWritten ws).
Proof.
  revert st. induction ws as [|w ws IH]; intros st after; subst after.
  - simpl. rewrite app_nil_r. split; reflexivity.
  - rewrite fmap_cons, run_calls_cons.
    destruct (write_effect genObj this w st) as (Hself & _ & _ & Hlog & Hpres).
    destruct (IH (perform genObj this (asCall w) st).2) as (Hl & Hp).
    rewrite Hl, Hp, Hlog, Hpres, Hself, written_keeps_callback.
    replace (numbersWritten (w :: ws))
      with (numbersWritten [w] ++ numbersWritten ws)
      by (symmetry; apply (omap_app _ [w] ws)).
    rewrite foldl_app, app_assoc. split; reflexivity.
Qed.

(** X4.  A sequence of property writes throws only where a propagation
    throws: when the propagation operation completes normally on each
    numbering spec the sequence writes, whatever the presentation state,
    the whole sequence completes normally; a sequence that writes no
    [slideNumber] always does. *)
Theorem property_writes_throw_only_by_propagation (genObj : GenObj Pres)
    (this : SlideRef) (ws : list PropertyWrite) (st : State Pres) :
  Forall (fun v => ∀ host, (_setSlideNum (self st) v host).1 = Normal tt)
    (numbersWritten ws) →
  perform_all genObj this (asCall <$> ws) st
  = (Normal tt, run_calls genObj this (asCall <$> ws) st).
Proof.
  revert st. induction ws as [|w ws IH]; intros st Hok; [reflexivity|].
  rewrite fmap_cons, run_calls_cons. cbn [perform_all].
  unfold mbind, M_bind.
  destruct (write_effect genObj this w st) as (Hself & _).
  assert (Hrest :
    Forall (fun v => ∀ host,
              (_setSlideNum (self (perform genObj this (asCall w) st).2) v
                 host).1 = Normal tt) (numbersWritten ws)).
  { rewrite Hself, written_keeps_callback.
    destruct w; simpl in Hok; try exact Hok.
    by apply Forall_cons in Hok as [_ Hok]. }
  specialize (IH _ Hrest).
  assert (Hone : (perform genObj this (asCall w) st).1 = Normal tt).
  { destruct w as [v|v|v|v]; try reflexivity.
    simpl. rewrite set_slideNumber_unfold.
    simpl in Hok. apply Forall_cons in Hok as [Hv _].
    specialize (Hv (pres st)).
    destruct (_setSlideNum (self st) v (pres st)) as [c host]. exact Hv. }
  destruct (perform genObj this (asCall w) st) as [c st1]. simpl in *.
  subst c. exact IH.
Qed.

End PropertyWrites.

(** X4 at a colour, a numbering spec and a flag written to a slide of a
    presentation that counts propagations. *)
Lemma property_writes_throw_only_by_propagation_witness :
  let st := freshState (exampleParams countingHost) ∅ 0%nat in
  let ws := [ SetColor (obj "336699"); SetSlideNumber (obj (mkSlideNumber 1 1));
              SetHidden (obj true) ] in
  (perform_all specGenObj 1%positive (asCall <$> ws) st).1 = Normal tt ∧
  pres (perform_all specGenObj 1%positive (asCall <$> ws) st).2 = 1%nat.
Proof.
  intros st ws.
  assert (H : Forall (fun v => ∀ host,
                        (_setSlideNum (self st) v host).1 = Normal tt)
                (numbersWritten ws)).
  { repeat constructor. }
  rewrite (property_writes_throw_only_by_propagation specGenObj 1%positive
             ws st H).
  split; reflexivity.
Defined.

Section FreshSlide.
Context {Pres : Type}.

(** X5.  On a freshly constructed slide every property getter, [bkgd],
    [background], [color], [hidden] and [slideNumber], returns
    [undefined].  This holds for [slideNumber] also when the layout
    defines a numbering spec: [slideNumberObj] then holds the layout's
    spec while the getter still returns [undefined]. *)
Theorem fresh_slide_reads_undefined (p : params.t Pres)
    (heap : gmap loc Options) (host : Pres) :
  let st := freshState p heap host in
  (get_bkgd st).1 = Normal undefined ∧
  (get_background st).1 = Normal undefined ∧
  (get_color st).1 = Normal undefined ∧
  (get_hidden st).1 = Normal undefined ∧
  (get_slideNumber st).1 = Normal undefined ∧
  (∀ layout numbering,
     params.slideLayout p = obj layout →
     sl_slideNumberObj layout = obj numbering →
     slideNumberObj (self st) = obj numbering ∧
     (get_slideNumber st).1 ≠ Normal (slideNumberObj (self st))).
Proof.
  intros st. subst st.
  do 5 (split; [reflexivity|]).
  intros layout numbering Hlayout Hnumbering. simpl. unfold js_or.
  rewrite Hlayout. simpl. rewrite Hnumbering. simpl.
  split; [reflexivity|discriminate].
Qed.

(** X6.  The constructor stores the identifiers it is given, and slides
    are named apart exactly as they are numbered apart: two constructed
    slides have the same name if and only if they were given the same
    slide number. *)
Theorem slides_are_named_by_number (p q : params.t Pres) :
  id (Slide_constructor p) = params.slideId p ∧
  rId (Slide_constructor p) = params.slideRId p ∧
  number (Slide_constructor p) = params.slideNumber p ∧
  (name (Slide_constructor p) = name (Slide_constructor q)
   ↔ params.slideNumber p = params.slideNumber q).
Proof.
  repeat split; try reflexivity.
  - apply constructor_name_determines_number.
  - intros H. simpl. rewrite H. reflexivity.
Qed.

End FreshSlide.

Section Delegation.
Context {Pres : Type}.

(** X7.  [addChart] called without an options object ([undefined] or
    [null]) creates a new object that holds [_type] and nothing else, at
    a location no object had, and hands the builder the argument as it
    was given, not the new object; every object there was is left as it
    was. *)
Theorem addChart_without_options_allocates (genObj : GenObj Pres)
    (this : SlideRef) (type : ChartType) (series : list ChartSeries)
    (st : State Pres) :
  let l := fresh (dom (objects st)) in
  let entry :=
    mkState (self st) (slots st)
      (<[l := {[ "_type" := JsChartType type ]}]> (objects st)) (pres st)
      (propagated st) in
  objects st !! l = None ∧
  addChart genObj this type series undefined st
    = (addChartDefinition genObj this type series undefined;; mret this) entry ∧
  addChart genObj this type series null st
    = (addChartDefinition genObj this type series null;; mret this) entry ∧
  (∀ (l' : loc) (o : Options),
     objects st !! l' = Some o → objects entry !! l' = Some o).
Proof.
  intros l entry. subst entry l.
  assert (Hfresh : objects st !! fresh (dom (objects st)) = None).
  { apply not_elem_of_dom, is_fresh. }
  split; [exact Hfresh|].
  assert (Hentry : ∀ v : JsValue,
    alter (<["_type" := v]>) (fresh (dom (objects st)))
      (<[fresh (dom (objects st)) := ∅]> (objects st))
    = <[fresh (dom (objects st)) := {[ "_type" := v ]}]> (objects st)).
  { intros v. rewrite alter_insert_eq, insert_empty. reflexivity. }
  repeat split.
  - unfold addChart. unfold mbind at 1, M_bind at 1. simpl.
    unfold mbind at 1, M_bind at 1, set_property. simpl.
    rewrite Hentry. reflexivity.
  - unfold addChart. unfold mbind at 1, M_bind at 1. simpl.
    unfold mbind at 1, M_bind at 1, set_property. simpl.
    rewrite Hentry. reflexivity.
  - intros l' o Ho. simpl. rewrite lookup_insert_ne; [exact Ho|].
    intros <-. congruence.
Qed.

(** Every composition method is some computation followed by
    [return this]. *)
Lemma compose_ends_with_return (genObj : GenObj Pres) (this : SlideRef)
    (c : Composition) :
  ∃ m : M Pres unit, ∀ st, compose genObj this c st = (m;; mret this) st.
Proof.
  destruct c as [text options|shapeName options|options|options
                |tableRows options|type series options|xml|notes]; simpl.
  - eexists; intros st; reflexivity.
  - eexists; intros st; reflexivity.
  - eexists; intros st; reflexivity.
  - eexists; intros st; reflexivity.
  - exists (s ← get_self;
            addTableDefinition genObj this tableRows options (slideLayout s)
              (presLayout s) (addSlide s) (getSlide s)).
    intros st; reflexivity.
  - destruct options as [| |l].
    + exists (l ← new_object ∅;
              set_property l "_type" (JsChartType type);;
              addChartDefinition genObj this type series undefined).
      intros st; reflexivity.
    + exists (l ← new_object ∅;
              set_property l "_type" (JsChartType type);;
              addChartDefinition genObj this type series null).
      intros st; reflexivity.
    + exists (set_property l "_type" (JsChartType type);;
              addChartDefinition genObj this type series (obj l)).
      intros st; reflexivity.
  - eexists; intros st; reflexivity.
  - eexists; intros st; reflexivity.
Qed.

(** X8.  Chained calls [slide.m1(...).m2(...)...] do what the same calls
    written as separate statements on [slide] do, and the chain evaluates
    to [slide]: the final state, and the error if one of the calls
    throws, are the same. *)
Theorem chaining_is_sequencing (genObj : GenObj Pres) (this : SlideRef)
    (cs : list Composition) (st : State Pres) :
  chain genObj this cs st
  = (perform_all genObj this (Compose <$> cs);; mret this) st.
Proof.
  revert st. induction cs as [|c cs IH]; intros st; [reflexivity|].
  destruct (compose_ends_with_return genObj this c) as [m Hm].
  rewrite fmap_cons. cbn [chain perform_all perform].
  unfold mbind, M_bind in *. rewrite Hm.
  destruct (m st) as [[[]|e] st1]; simpl; [|reflexivity].
  apply IH.
Qed.

End Delegation.

Section Recording.

(** Under the recording builder no public operation writes the fields
    [builderCalls] reads, the content list, a relationship table or the
    builder's slots. *)
Lemma recording_frame (this : SlideRef) (c : Call)
    (st : State (list BuilderCall)) :
  let after := (perform recordingGenObj this c st).2 in
  slideLayout (self after) = slideLayout (self st) ∧
  presLayout (self after) = presLayout (self st) ∧
  addSlide (self after) = addSlide (self st) ∧
  getSlide (self after) = getSlide (self st) ∧
  _setSlideNum (self after) = _setSlideNum (self st) ∧
  data (self after) = data (self st) ∧
  rels (self after) = rels (self st) ∧
  relsChart (self after) = relsChart (self st) ∧
  relsMedia (self after) = relsMedia (self st) ∧
  slots after = slots st.
Proof.
  destruct c as [c|v|v|v|v|v]; simpl; try (repeat split; reflexivity).
  - destruct c as [text options|shapeName options|options|options
                  |tableRows options|type series options|xml|notes];
      simpl; try (repeat split; reflexivity).
    destruct options; simpl; repeat split; reflexivity.
  - rewrite set_slideNumber_unfold.
    destruct (_setSlideNum (self st) v (pres st)) as [k host].
    repeat split; reflexivity.
Qed.

(** Under the recording builder one public operation notes the calls
    [builderCalls] lists. *)
Lemma recording_step (this : SlideRef) (c : Call)
    (st : State (list BuilderCall)) :
  (∀ v host, (_setSlideNum (self st) v host).2 = host) →
  pres (perform recordingGenObj this c st).2
  = pres st ++ builderCalls this (self st) c.
Proof.
  intros Hquiet.
  destruct c as [c|v|v|v|v|v]; simpl; rewrite ?app_nil_r; try reflexivity.
  - destruct c as [text options|shapeName options|options|options
                  |tableRows options|type series options|xml|notes];
      simpl; try reflexivity.
    destruct options; reflexivity.
  - rewrite set_slideNumber_unfold. specialize (Hquiet v (pres st)).
    destruct (_setSlideNum (self st) v (pres st)) as [k host].
    simpl in *. congruence.
Qed.

Lemma builderCalls_reads (this : SlideRef) (s s' : Slide (list BuilderCall))
    (c : Call) :
  slideLayout s' = slideLayout s → presLayout s' = presLayout s →
  addSlide s' = addSlide s → getSlide s' = getSlide s →
  builderCalls this s' c = builderCalls this s c.
Proof.
  intros H1 H2 H3 H4. destruct c as [[]| | | | |]; simpl;
    rewrite ?H1, ?H2, ?H3, ?H4; reflexivity.
Qed.

(** X9.  Each composition method calls exactly one function of
    gen-objects, once, with the slide as target and the arguments of the
    call as given ([addText] adds [false]; [addTable] adds the slide's
    layout, the presentation layout and the two slide callbacks;
    [addChart] passes its options argument as given); a write of
    [background] calls the background handler once; writes of [bkgd],
    [color], [hidden] and [slideNumber] call none.  Over a run of
    operations a builder that records its calls, under a propagation
    operation that leaves the presentation state alone, ends with exactly
    these calls, in the order of the operations. *)
Theorem builder_is_called_once_per_operation (this : SlideRef)
    (cs : list Call) (st : State (list BuilderCall)) :
  (∀ v host, (_setSlideNum (self st) v host).2 = host) →
  pres (run_calls recordingGenObj this cs st)
  = pres st ++ concat (builderCalls this (self st) <$> cs).
Proof.
  revert st. induction cs as [|c cs IH]; intros st Hquiet.
  - simpl. rewrite app_nil_r. reflexivity.
  - rewrite run_calls_cons, fmap_cons. simpl.
    destruct (recording_frame this c st) as (H1 & H2 & H3 & H4 & H5 & _).
    rewrite IH by (rewrite H5; exact Hquiet).
    rewrite (recording_step this c st Hquiet), <- app_assoc.
    do 3 f_equal. apply list_fmap_ext. intros _ c' _.
    by apply builderCalls_reads.
Qed.

(** X10.  No operation of [Slide] writes the content list or a
    relationship table by itself: under a builder that only records its
    calls, these are after any run of operations what they were before. *)
Theorem slide_leaves_content_to_the_builder (this : SlideRef)
    (cs : list Call) (st : State (list BuilderCall)) :
  let after := run_calls recordingGenObj this cs st in
  data (self after) = data (self st) ∧
  rels (self after) = rels (self st) ∧
  relsChart (self after) = relsChart (self st) ∧
  relsMedia (self after) = relsMedia (self st).
Proof.
  revert st. induction cs as [|c cs IH]; intros st after; subst after.
  - repeat split; reflexivity.
  - rewrite run_calls_cons.
    destruct (recording_frame this c st)
      as (_ & _ & _ & _ & _ & Hd & Hr & Hc & Hm & _).
    destruct (IH (perform recordingGenObj this c st).2)
      as (Hd' & Hr' & Hc' & Hm').
    rewrite Hd', Hr', Hc', Hm', Hd, Hr, Hc, Hm.
    repeat split; reflexivity.
Qed.

(** Under the recording builder [addChart] with the options object at
    [l] leaves the object with the chart type in [_type]. *)
Lemma recording_chart_step (this : SlideRef) (type : ChartType)
    (series : list ChartSeries) (l : loc) (o : Options)
    (st : State (list BuilderCall)) :
  objects st !! l = Some o →
  objects (perform recordingGenObj this
             (Compose (AddChart type series (obj l))) st).2 !! l
  = Some (<["_type" := JsChartType type]> o).
Proof.
  intros Hl. simpl. rewrite (alter_present _ _ _ _ Hl).
  apply lookup_insert_eq.
Qed.

(** X11.  An options object passed to several [addChart] calls is one
    shared object: each call overwrites its [_type], so that under a
    builder that leaves option objects alone the object ends with the
    chart type of the last call, its other properties as they were. *)
Theorem shared_chart_options_hold_last_type (this : SlideRef) (l : loc)
    (o : Options) (charts : list (ChartType * list ChartSeries))
    (st : State (list BuilderCall)) :
  objects st !! l = Some o →
  objects (run_calls recordingGenObj this (chartsOn l charts) st) !! l
  = Some (match last charts with
          | Some chart => <["_type" := JsChartType chart.1]> o
          | None => o
          end).
Proof.
  revert o st. induction charts as [|chart charts IH]; intros o st Hl.
  - exact Hl.
  - unfold chartsOn. rewrite fmap_cons, run_calls_cons.
    pose proof (recording_chart_step this chart.1 chart.2 l o st Hl) as Hstep.
    fold (chartsOn l charts). rewrite (IH _ _ Hstep), last_cons.
    destruct (last charts) as [later|]; [|reflexivity].
    by rewrite insert_insert_eq.
Qed.

End Recording.

(** X9 on a slide whose propagation operation is silent: a text, a
    colour, a table and a background make three calls of the builder. *)
Lemma builder_is_called_once_witness :
  let st := mkState
              (Slide_constructor
                 (params.mk (HostFunction "addSlide") (HostFunction "getSlide")
                    letterLayout silentHost 256 2 1 undefined))
              (mkSlots undefined undefined) ∅ [] [] in
  let cs := [ Compose (AddText (TextString "Hello") undefined);
              WriteColor (obj "336699");
              Compose (AddTable [["a"]] undefined);
              WriteBackground redFill ] in
  pres (run_calls recordingGenObj 1%positive cs st)
  = [ CalledText 1%positive (TextString "Hello") undefined false;
      CalledTable 1%positive [["a"]] undefined null letterLayout
        (HostFunction "addSlide") (HostFunction "getSlide");
      CalledBackground redFill 1%positive ].
Proof.
  intros st cs.
  assert (H : ∀ v host, (_setSlideNum (self st) v host).2 = host)
    by reflexivity.
  rewrite (builder_is_called_once_per_operation 1%positive cs st H).
  reflexivity.
Defined.

(** X11 at a bar chart and a pie chart that share one options object. *)
Lemma shared_chart_options_witness :
  let o : Options := {[ "title" := JsString "Sales" ]} in
  let st := mkState
              (Slide_constructor
                 (params.mk (HostFunction "addSlide") (HostFunction "getSlide")
                    letterLayout silentHost 256 2 1 undefined))
              (mkSlots undefined undefined) {[ 5%positive := o ]} [] [] in
  objects st !! 5%positive = Some o ∧
  objects (run_calls recordingGenObj 1%positive
             (chartsOn 5%positive [(SingleChart "bar", []);
                                   (SingleChart "pie", [])]) st) !! 5%positive
  = Some (<["_type" := JsChartType (SingleChart "pie")]> o).
Proof.
  intros o st.
  assert (H : objects st !! 5%positive = Some o) by reflexivity.
  split; [exact H|].
  exact (shared_chart_options_hold_last_type 1%positive 5%positive o
           [(SingleChart "bar", []); (SingleChart "pie", [])] st H).
Defined.
